(** * Low-level discovery rules: the shared CRUD engine of [provider/common_lld.go]

    A shallow embedding of the schema, the object builder, the flattener and
    the four lifecycle handlers of [common_lld.go], with the properties the
    specification states about them. *)

From Stdlib Require Import Ascii String.
From stdpp Require Import base option list strings pretty gmap.

(** ** Go's [strings] package, on byte strings

    A Go [string] is a sequence of bytes, and so is a Rocq [string]. *)
Module strings.

(** [strings.Join(elems, sep)]. *)
Fixpoint Join (elems : list string) (sep : string) : string :=
  match elems with
  | [] => ""
  | [e] => e
  | e :: rest => e +:+ sep +:+ Join rest sep
  end.

(** Puts a byte in front of the first field of a list of fields. *)
Definition cons_head (c : ascii) (fields : list string) : list string :=
  match fields with
  | [] => [String c ""]
  | f :: fs => String c f :: fs
  end.

(** The scan of [strings.Split] for a non-empty separator: matches are
    taken greedily from the left and do not overlap; [skip] counts the
    bytes of a match that are still to be stepped over. *)
Fixpoint split_from (sep : string) (skip : nat) (s : string) : list string :=
  match s with
  | "" => [""]
  | String c s' =>
      match skip with
      | S k => split_from sep k s'
      | O =>
          if String.prefix sep s
          then "" :: split_from sep (String.length sep - 1) s'
          else cons_head c (split_from sep 0 s')
      end
  end.

(** The empty separator: [strings.Split] cuts after every UTF-8 sequence,
    which is after every byte on ASCII text. *)
Fixpoint explode (s : string) : list string :=
  match s with
  | "" => []
  | String c s' => String c "" :: explode s'
  end.

(** [strings.Split(s, sep)]. *)
Definition Split (s sep : string) : list string :=
  match sep with
  | "" => explode s
  | _ => split_from sep 0 s
  end.

(** [strings.Contains(s, substr)] for a one-byte [substr]. *)
Fixpoint ContainsByte (s : string) (c : ascii) : bool :=
  match s with
  | "" => false
  | String a s' => if Ascii.eqb a c then true else ContainsByte s' c
  end.

End strings.

(** The separator of the wire format, the Go literal ["\n"]. *)
Definition newline_byte : ascii := "010"%char.
Definition newline : string := String newline_byte "".

(** ** The client library's types: [zabbix.Preprocessor], [zabbix.LLDRule] *)

Record Preprocessor := mkPreprocessor {
  Type_ : string;
  Params : string;
  ErrorHandler : string;
  ErrorHandlerParams : string;
}.

(** [zabbix.Preprocessors]. *)
Abbreviation Preprocessors := (list Preprocessor).

Record LLDRule := mkLLDRule {
  ItemID : string;
  Key : string;
  HostID : string;
  Name : string;
  Delay : string;
  Preprocessors_ : Preprocessors;
  (* the fields a concrete rule kind adds through its handlers *)
  Extra : gmap string string;
}.

Definition set_ItemID (id : string) (lld : LLDRule) : LLDRule :=
  mkLLDRule id (Key lld) (HostID lld) (Name lld) (Delay lld)
            (Preprocessors_ lld) (Extra lld).

(** ** The configuration record: [*schema.ResourceData]

    One [preprocessor] block of the configuration. *)
Record PreprocessorBlock := mkBlock {
  b_id : string;
  b_type : string;
  b_params : list string;
  b_error_handler : string;
  b_error_handler_params : string;
}.

Record ResourceData := mkResourceData {
  Id : string;
  hostid : string;
  delay : string;
  key : string;
  name : string;
  preprocessor : list PreprocessorBlock;
  (* attributes of the concrete rule kind, outside the common schema *)
  attrs : gmap string string;
}.

(** The values [d.Get] hands out and [d.Set] takes: Go's [interface{}]
    restricted to the shapes this file uses. *)
Inductive Value :=
| VString (s : string)
| VStrings (l : list string).

Global Instance Value_eq_dec : EqDecision Value.
Proof. solve_decision. Defined.

(** [d.Get("preprocessor.#")]. *)
Definition Get_preprocessor_count (d : ResourceData) : nat :=
  length (preprocessor d).

(** The zero value [d.Get] returns under an index with no block. *)
Definition zero_block : PreprocessorBlock := mkBlock "" "" [] "" "".

(** [d.Get("preprocessor.<i>." + field)]. *)
Definition Get_block (d : ResourceData) (i : nat) : PreprocessorBlock :=
  default zero_block (preprocessor d !! i).

(** ** Object builder *)

(** The body of the loop of [lldGeneratePreprocessors] at index [i]. *)
Definition generate_at (d : ResourceData) (i : nat) : Preprocessor :=
  let params := b_params (Get_block d i) in
  let pstrarr := params in
  {| Type_ := b_type (Get_block d i);
     Params := strings.Join pstrarr newline;
     ErrorHandler := b_error_handler (Get_block d i);
     ErrorHandlerParams := b_error_handler_params (Get_block d i) |}.

(** The counting loop [for i := 0; i < n; i++ { a[i] = f(i) }] over a slice
    made with [n] zero elements. *)
Fixpoint fill_loop {A} (f : nat -> A) (i : nat) (todo : nat) (a : list A) : list A :=
  match todo with
  | O => a
  | S todo' => fill_loop f (S i) todo' (<[i := f i]> a)
  end.

Definition zero_Preprocessor : Preprocessor := mkPreprocessor "" "" "" "".

Definition lldGeneratePreprocessors (d : ResourceData) : Preprocessors :=
  let preprocessorCount := Get_preprocessor_count d in
  let preprocessors := replicate preprocessorCount zero_Preprocessor in
  fill_loop (generate_at d) 0 preprocessorCount preprocessors.

Definition buildLLDObject (d : ResourceData) : LLDRule :=
  {| ItemID := "";
     Key := key d;
     HostID := hostid d;
     Name := name d;
     Delay := delay d;
     Preprocessors_ := lldGeneratePreprocessors d;
     Extra := ∅ |}.

(** ** Flattener *)

(** The map literal built for preprocessor [p]; the ["id"] entry is
    commented out in the source. *)
Definition flatten_one (p : Preprocessor) : gmap string Value :=
  let parr := strings.Split (Params p) newline in
  <["type" := VString (Type_ p)]>
  (<["params" := VStrings parr]>
  (<["error_handler" := VString (ErrorHandler p)]>
  (<["error_handler_params" := VString (ErrorHandlerParams p)]> ∅))).

Definition flattenlldPreprocessors (lld : LLDRule) : list (gmap string Value) :=
  let n := length (Preprocessors_ lld) in
  fill_loop
    (fun i => flatten_one (default zero_Preprocessor (Preprocessors_ lld !! i)))
    0 n (replicate n ∅).

(** ** Schema definitions *)

Inductive ValueType := TypeString | TypeList.

(** What [Elem] points to: a nested [*schema.Schema] or a [*schema.Resource]. *)
Inductive SchemaElem (S : Type) :=
| ElemSchema (s : S)
| ElemResource (fields : list (string * S)).

Arguments ElemSchema {S} s.
Arguments ElemResource {S} fields.

(** [schema.Schema], with the attributes this file sets. *)
#[local] Unset Elimination Schemes.
Inductive Schema := mkSchema {
  Type__ : ValueType;
  Required : bool;
  Optional : bool;
  ForceNew : bool;
  Computed : bool;
  Default : option string;
  Description : string;
  ValidateFunc : option (string -> bool);
  Elem : option (SchemaElem Schema);
}.
#[local] Set Elimination Schemes.

Definition is_digit (c : ascii) : bool :=
  let n := nat_of_ascii c in (48 <=? n)%nat && (n <=? 57)%nat.

Fixpoint all_digits (s : string) : bool :=
  match s with
  | "" => true
  | String c s' => is_digit c && all_digits s'
  end.

(** [validation.StringMatch(regexp.MustCompile("^[0-9]+$"), "must be numeric")]:
    one digit or more, and nothing else. *)
Definition StringMatch_numeric (s : string) : bool :=
  match s with
  | "" => false
  | _ => all_digits s
  end.

Definition is_space (c : ascii) : bool :=
  let n := nat_of_ascii c in
  ((9 <=? n)%nat && (n <=? 13)%nat) || (n =? 32)%nat.

Fixpoint all_space (s : string) : bool :=
  match s with
  | "" => true
  | String c s' => is_space c && all_space s'
  end.

(** Modelled from the spec: [validation.StringIsNotWhiteSpace] belongs to the
    plugin SDK; the specification names it the non-blank constraint: the
    value is refused when nothing but white space is in it. *)
Definition StringIsNotWhiteSpace (s : string) : bool := negb (all_space s).

Definition lldCommonSchema : list (string * Schema) :=
  [ ("hostid",
     mkSchema TypeString true false true false None "Host ID"
              (Some StringMatch_numeric) None);
    ("delay",
     mkSchema TypeString false true false false (Some "3600") "LLD Delay period"
              (Some StringIsNotWhiteSpace) None);
    ("key",
     mkSchema TypeString true false false false None "LLD KEY"
              (Some StringIsNotWhiteSpace) None);
    ("name",
     mkSchema TypeString true false false false None "LLD Name"
              (Some StringIsNotWhiteSpace) None) ].

Definition lldInterfaceSchema : list (string * Schema) :=
  [ ("interfaceid",
     mkSchema TypeString false true false false (Some "0") "Host Interface ID"
              None None) ].

Definition lldPreprocessorFields : list (string * Schema) :=
  [ ("id", mkSchema TypeString false false false true None "" None None);
    ("type",
     mkSchema TypeString true false false false None
              "Preprocessor type, zabbix identifier number"
              (Some StringMatch_numeric) None);
    ("params",
     mkSchema TypeList false true false false None "Preprocessor parameters" None
              (Some (ElemSchema
                       (mkSchema TypeString false false false false None ""
                                 (Some StringIsNotWhiteSpace) None))));
    ("error_handler",
     mkSchema TypeString false true false false (Some "") "" None None);
    ("error_handler_params",
     mkSchema TypeString false true false false (Some "") "" None None) ].

Definition lldPreprocessorSchema : Schema :=
  mkSchema TypeList false true false false None "" None
           (Some (ElemResource lldPreprocessorFields)).

(** The schema of a field, by name. *)
Fixpoint field_schema (fields : list (string * Schema)) (k : string) : option Schema :=
  match fields with
  | [] => None
  | (k', s) :: rest => if String.eqb k' k then Some s else field_schema rest k
  end.

(** A string value passes a schema when its [ValidateFunc], if any, accepts it. *)
Definition passes (s : Schema) (v : string) : bool :=
  match ValidateFunc s with
  | Some f => f v
  | None => true
  end.

Definition field_passes (fields : list (string * Schema)) (k v : string) : bool :=
  match field_schema fields k with
  | Some s => passes s v
  | None => false
  end.

(** The elements of a list value pass the schema of [Elem]. *)
Definition elems_pass (s : Schema) (vs : list string) : bool :=
  match Elem s with
  | Some (ElemSchema e) => forallb (passes e) vs
  | _ => true
  end.

Definition block_valid (b : PreprocessorBlock) : bool :=
  field_passes lldPreprocessorFields "type" (b_type b)
  && match field_schema lldPreprocessorFields "params" with
     | Some s => elems_pass s (b_params b)
     | None => false
     end
  && field_passes lldPreprocessorFields "error_handler" (b_error_handler b)
  && field_passes lldPreprocessorFields "error_handler_params"
                  (b_error_handler_params b).

(** A configuration record the validation of section 4.1 lets through: every
    field passes the [ValidateFunc] its schema declares. *)
Definition valid_config (d : ResourceData) : bool :=
  field_passes lldCommonSchema "hostid" (hostid d)
  && field_passes lldCommonSchema "delay" (delay d)
  && field_passes lldCommonSchema "key" (key d)
  && field_passes lldCommonSchema "name" (name d)
  && forallb block_valid (preprocessor d).

(** ** The remote system

    Go's [error] values are modelled by their message; [None] is [nil]. *)
Definition error := string.

(** [zabbix.Params]. *)
Abbreviation Params_map := (gmap string Value).

(** One call on the API client, with the argument it was given. *)
Inductive ApiCall :=
| CallLLDsCreate (llds : list LLDRule)
| CallLLDsUpdate (llds : list LLDRule)
| CallLLDsGet (params : Params_map)
| CallLLDDeleteByIds (ids : list string).

(** The four methods of [*zabbix.API] the handlers use, over the state
    [World] of the remote system. [LLDsCreate] writes the identifiers the
    server assigned into its batch in place: the batch as the call leaves it
    is part of what it returns here. *)
Record API (World : Type) := mkAPI {
  LLDsCreate : list LLDRule -> World -> list LLDRule * option error * World;
  LLDsUpdate : list LLDRule -> World -> option error * World;
  LLDsGet : Params_map -> World -> list LLDRule * option error * World;
  LLDDeleteByIds : list string -> World -> option error * World;
}.

Arguments LLDsCreate {World} _ _ _.
Arguments LLDsUpdate {World} _ _ _.
Arguments LLDsGet {World} _ _ _.
Arguments LLDDeleteByIds {World} _ _ _.

(** What a handler runs against: the remote system and the calls made on the
    client so far, oldest first. *)
Record Session (World : Type) := mkSession {
  world : World;
  calls : list ApiCall;
}.

Arguments mkSession {World} _ _.
Arguments world {World} _.
Arguments calls {World} _.

(** [LLDHandler]: both arguments are pointers, so a handler may change the
    record and the rule. *)
Definition LLDHandler := ResourceData -> LLDRule -> ResourceData * LLDRule.

(** How a Go function ends: it returns, or it panics. *)
Inductive Outcome (A : Type) :=
| Returned (a : A)
| Panicked.

Arguments Returned {A} a.
Arguments Panicked {A}.

(** ** [schema.ResourceData] setters *)

Definition SetId (v : string) (d : ResourceData) : ResourceData :=
  mkResourceData v (hostid d) (delay d) (key d) (name d) (preprocessor d) (attrs d).

Definition Set_hostid (v : string) (d : ResourceData) : ResourceData :=
  mkResourceData (Id d) v (delay d) (key d) (name d) (preprocessor d) (attrs d).

Definition Set_key (v : string) (d : ResourceData) : ResourceData :=
  mkResourceData (Id d) (hostid d) (delay d) v (name d) (preprocessor d) (attrs d).

Definition Set_name (v : string) (d : ResourceData) : ResourceData :=
  mkResourceData (Id d) (hostid d) (delay d) (key d) v (preprocessor d) (attrs d).

Definition Set_delay (v : string) (d : ResourceData) : ResourceData :=
  mkResourceData (Id d) (hostid d) v (key d) (name d) (preprocessor d) (attrs d).

Definition as_string (v : option Value) : string :=
  match v with
  | Some (VString s) => s
  | _ => ""
  end.

Definition as_strings (v : option Value) : list string :=
  match v with
  | Some (VStrings l) => l
  | _ => []
  end.

(** The block [d.Set] stores for one flattened map; a key the map does not
    have leaves the zero value. *)
Definition block_of_map (m : gmap string Value) : PreprocessorBlock :=
  {| b_id := as_string (m !! "id");
     b_type := as_string (m !! "type");
     b_params := as_strings (m !! "params");
     b_error_handler := as_string (m !! "error_handler");
     b_error_handler_params := as_string (m !! "error_handler_params") |}.

Definition Set_preprocessor (v : list (gmap string Value)) (d : ResourceData)
  : ResourceData :=
  mkResourceData (Id d) (hostid d) (delay d) (key d) (name d)
                 (block_of_map <$> v) (attrs d).

(** ** CRUD orchestrator *)

Section Handlers.

Context {World : Type}.
Variable api : API World.

(** The result of a handler: the [error] it returns, the record as it leaves
    it, and the session. *)
Definition Result : Type := option error * ResourceData * Session World.

Definition do_LLDsCreate (llds : list LLDRule) (s : Session World)
  : list LLDRule * option error * Session World :=
  let '(llds', err, w) := LLDsCreate api llds (world s) in
  (llds', err, mkSession w (calls s ++ [CallLLDsCreate llds])).

Definition do_LLDsUpdate (llds : list LLDRule) (s : Session World)
  : option error * Session World :=
  let '(err, w) := LLDsUpdate api llds (world s) in
  (err, mkSession w (calls s ++ [CallLLDsUpdate llds])).

Definition do_LLDsGet (params : Params_map) (s : Session World)
  : list LLDRule * option error * Session World :=
  let '(llds, err, w) := LLDsGet api params (world s) in
  (llds, err, mkSession w (calls s ++ [CallLLDsGet params])).

Definition do_LLDDeleteByIds (ids : list string) (s : Session World)
  : option error * Session World :=
  let '(err, w) := LLDDeleteByIds api ids (world s) in
  (err, mkSession w (calls s ++ [CallLLDDeleteByIds ids])).

(** The query of [resourceLLDRead]. *)
Definition read_params (d : ResourceData) : Params_map :=
  <["lldids" := VStrings [Id d]]>
  (<["selectPreprocessing" := VString "extend"]> ∅).

Definition resourceLLDRead (d : ResourceData) (s : Session World) (r : LLDHandler)
  : Result :=
  let '(llds, err, s) := do_LLDsGet (read_params d) s in
  match err with
  | Some e => (Some e, d, s)
  | None =>
      if (length llds <? 1)%nat then (None, SetId "" d, s)
      else if (1 <? length llds)%nat then (Some "multiple llds found", d, s)
      else
        match llds with
        | lld :: _ =>
            let d := SetId (ItemID lld) d in
            let d := Set_hostid (HostID lld) d in
            let d := Set_key (Key lld) d in
            let d := Set_name (Name lld) d in
            let d := Set_delay (Delay lld) d in
            let d := Set_preprocessor (flattenlldPreprocessors lld) d in
            let '(d, _) := r d lld in
            (None, d, s)
        | [] => (None, d, s)
        end
  end.

Definition resourceLLDCreate (d : ResourceData) (s : Session World)
           (c r : LLDHandler) : Outcome Result :=
  let lld := buildLLDObject d in
  let '(d, lld) := c d lld in
  let llds := [lld] in
  let '(llds, err, s) := do_LLDsCreate llds s in
  match err with
  | Some e => Returned (Some e, d, s)
  | None =>
      match llds with
      | lld0 :: _ =>
          let d := SetId (ItemID lld0) d in
          Returned (resourceLLDRead d s r)
      | [] => Panicked
      end
  end.

Definition resourceLLDUpdate (d : ResourceData) (s : Session World)
           (c r : LLDHandler) : Result :=
  let lld := buildLLDObject d in
  let lld := set_ItemID (Id d) lld in
  let '(d, lld) := c d lld in
  let llds := [lld] in
  let '(err, s) := do_LLDsUpdate llds s in
  match err with
  | Some e => (Some e, d, s)
  | None => resourceLLDRead d s r
  end.

Definition resourceLLDDelete (d : ResourceData) (s : Session World) : Result :=
  let '(err, s) := do_LLDDeleteByIds [Id d] s in
  (err, d, s).

Definition lldGetCreateWrapper (c r : LLDHandler) :=
  fun (d : ResourceData) (m : Session World) => resourceLLDCreate d m c r.

Definition lldGetUpdateWrapper (c r : LLDHandler) :=
  fun (d : ResourceData) (m : Session World) => resourceLLDUpdate d m c r.

Definition lldGetReadWrapper (r : LLDHandler) :=
  fun (d : ResourceData) (m : Session World) => resourceLLDRead d m r.

End Handlers.

(** ** A remote system to run the handlers against

    An in-memory stand-in for the monitoring server: it keeps the rules it
    was sent and numbers them as they are created. *)
Module MemoryServer.

Record World := mkWorld {
  next : nat;
  rules : list LLDRule;
}.

Fixpoint assign_ids (n : nat) (llds : list LLDRule) : list LLDRule :=
  match llds with
  | [] => []
  | lld :: rest => set_ItemID (pretty n) lld :: assign_ids (S n) rest
  end.

Definition same_key (a b : LLDRule) : bool :=
  String.eqb (HostID a) (HostID b) && String.eqb (Key a) (Key b).

(** A discovery key is unique on its host: a duplicate is refused. *)
Definition create (llds : list LLDRule) (w : World)
  : list LLDRule * option error * World :=
  if existsb (fun lld => existsb (same_key lld) (rules w)) llds
  then (llds, Some "discovery rule already exists", w)
  else
    let llds' := assign_ids (next w) llds in
    (llds', None, mkWorld (next w + length llds) (rules w ++ llds')).

Definition has_id (id : string) (lld : LLDRule) : bool := String.eqb (ItemID lld) id.

Definition known (w : World) (id : string) : bool := existsb (has_id id) (rules w).

(** The rule as the batch has it, for a rule the batch names. *)
Definition replaced (llds : list LLDRule) (old : LLDRule) : LLDRule :=
  match List.find (has_id (ItemID old)) llds with
  | Some lld => lld
  | None => old
  end.

Definition update (llds : list LLDRule) (w : World) : option error * World :=
  if forallb (fun lld => known w (ItemID lld)) llds
  then (None, mkWorld (next w) (replaced llds <$> rules w))
  else (Some "no permissions to referred object or it does not exist", w).

(** A filter the server does not know is ignored. *)
Definition get (params : Params_map) (w : World)
  : list LLDRule * option error * World :=
  match params !! "lldids" with
  | Some (VStrings ids) =>
      (List.filter (fun lld => existsb (String.eqb (ItemID lld)) ids) (rules w),
       None, w)
  | _ => (rules w, None, w)
  end.

Definition delete (ids : list string) (w : World) : option error * World :=
  if forallb (known w) ids
  then (None,
        mkWorld (next w)
                (List.filter (fun lld => negb (existsb (String.eqb (ItemID lld)) ids))
                             (rules w)))
  else (Some "no permissions to referred object or it does not exist", w).

Definition api : API World := mkAPI World create update get delete.

Definition start : Session World := mkSession (mkWorld 1 []) [].

End MemoryServer.

(** A handler that leaves the record and the rule as they are. *)
Definition no_handler : LLDHandler := fun d lld => (d, lld).

(** ** Sample configurations *)

Definition sample_block : PreprocessorBlock :=
  mkBlock "" "5" ["a"; "b"] "0" "".

Definition sample_config : ResourceData :=
  mkResourceData "" "10084" "3600" "vfs.fs.discovery" "Mounted filesystems"
                 [sample_block] ∅.

(** The rule the sample configuration stands for, under identifier [id]. *)
Definition sample_rule (id : string) : LLDRule :=
  mkLLDRule id "vfs.fs.discovery" "10084" "Mounted filesystems" "3600"
            [mkPreprocessor "5" (String "a" (String newline_byte "b")) "0" ""]
            ∅.

(** A block that gives no parameters. *)
Definition bare_block : PreprocessorBlock := mkBlock "" "12" [] "" "".

Definition bare_config : ResourceData :=
  mkResourceData "" "10084" "3600" "net.if.discovery" "Network interfaces"
                 [bare_block] ∅.

(** ** Vocabulary of the properties *)

(** A parameter string the wire format can carry: no newline in it. *)
Definition newline_free (p : string) : bool :=
  negb (strings.ContainsByte p newline_byte).

Definition params_newline_free (d : ResourceData) : bool :=
  forallb (fun b => forallb newline_free (b_params b)) (preprocessor d).

(** Every block gives one parameter at least. *)
Definition params_given (d : ResourceData) : bool :=
  forallb (fun b => negb (bool_decide (b_params b = []))) (preprocessor d).

(** The preprocessor built for a block. *)
Definition generate_block (b : PreprocessorBlock) : Preprocessor :=
  {| Type_ := b_type b;
     Params := strings.Join (b_params b) newline;
     ErrorHandler := b_error_handler b;
     ErrorHandlerParams := b_error_handler_params b |}.

(** A flattened map carries the four values of a block. *)
Definition entry_matches (b : PreprocessorBlock) (m : gmap string Value) : Prop :=
  m !! "type" = Some (VString (b_type b))
  ∧ m !! "params" = Some (VStrings (b_params b))
  ∧ m !! "error_handler" = Some (VString (b_error_handler b))
  ∧ m !! "error_handler_params" = Some (VString (b_error_handler_params b)).

(** Flattening what the builder built gives the blocks back, in order. *)
Definition roundtrip_holds (d : ResourceData) : Prop :=
  Forall2 entry_matches (preprocessor d)
          (flattenlldPreprocessors (buildLLDObject d)).

(** The parameter list of the flattened entry at index [i]. *)
Definition flat_params (flat : list (gmap string Value)) (i : nat)
  : option Value :=
  flat !! i ≫= (.!! "params").

(** The parts of a handler's result. *)
Definition res_err {World} (res : @Result World) : option error := res.1.1.
Definition res_data {World} (res : @Result World) : ResourceData := res.1.2.
Definition res_session {World} (res : @Result World) : Session World := res.2.

(** The query of a read as section 6 of the specification words it. *)
Definition claimed_read_params (d : ResourceData) : Params_map :=
  <["ids" := VStrings [Id d]]>
  (<["selectPreprocessing" := VString "extend"]> ∅).

(** ** Sample sessions *)

(** The sample configuration once created under identifier 7. *)
Definition stored_config : ResourceData := SetId "7" sample_config.

Definition stored_rule : LLDRule := set_ItemID "7" (buildLLDObject sample_config).

(** A server that holds the sample rule. *)
Definition one_rule : Session MemoryServer.World :=
  mkSession (MemoryServer.mkWorld 8 [stored_rule]) [].

(** A server in an inconsistent state: two rules under one identifier. *)
Definition twin_rules : Session MemoryServer.World :=
  mkSession
    (MemoryServer.mkWorld 8 [stored_rule; set_ItemID "7" (buildLLDObject bare_config)])
    [].

(** The stored configuration with its host changed by the caller. *)
Definition moved_config : ResourceData := Set_hostid "20001" stored_config.

(** The handlers run on the samples. *)
Definition read_on_empty : @Result MemoryServer.World :=
  resourceLLDRead MemoryServer.api stored_config MemoryServer.start no_handler.

Definition read_on_twins : @Result MemoryServer.World :=
  resourceLLDRead MemoryServer.api stored_config twin_rules no_handler.

Definition update_stored : @Result MemoryServer.World :=
  resourceLLDUpdate MemoryServer.api stored_config one_rule no_handler no_handler.

(** ** Vocabulary of the further properties *)

(** The number of newline bytes in a string. *)
Fixpoint count_newlines (s : string) : nat :=
  match s with
  | "" => 0
  | String c s' =>
      (if Ascii.eqb c newline_byte then 1 else 0) + count_newlines s'
  end.

(** The block a read stores for a preprocessor of the remote rule. *)
Definition block_of_wire (p : Preprocessor) : PreprocessorBlock :=
  {| b_id := "";
     b_type := Type_ p;
     b_params := strings.Split (Params p) newline;
     b_error_handler := ErrorHandler p;
     b_error_handler_params := ErrorHandlerParams p |}.

(** A block without its computed identifier. *)
Definition clear_id (b : PreprocessorBlock) : PreprocessorBlock :=
  mkBlock "" (b_type b) (b_params b) (b_error_handler b)
          (b_error_handler_params b).

(** The remote rule carries what the builder makes of the record. *)
Definition echoes (d : ResourceData) (lld : LLDRule) : Prop :=
  Key lld = key d
  ∧ HostID lld = hostid d
  ∧ Name lld = name d
  ∧ Delay lld = delay d
  ∧ Preprocessors_ lld = lldGeneratePreprocessors d.

(** The record a read leaves when the remote rule echoes it: the identifier
    of the rule, and the blocks without their computed identifiers. *)
Definition synced (id : string) (d : ResourceData) : ResourceData :=
  mkResourceData id (hostid d) (delay d) (key d) (name d)
                 (clear_id <$> preprocessor d) (attrs d).

(** A remote system that cannot be reached: every call fails. *)
Module DownServer.

Definition refused : error := "connection refused".

Definition api : API unit :=
  mkAPI unit
        (fun llds w => (llds, Some refused, w))
        (fun _ w => (Some refused, w))
        (fun _ w => ([], Some refused, w))
        (fun _ w => (Some refused, w)).

Definition start : Session unit := mkSession tt [].

End DownServer.

(** ** The lifecycle driver and the fields that force a new resource *)

(** The value of a field of the common schema, by name. *)
Definition common_field (k : string) (d : ResourceData) : string :=
  if String.eqb k "hostid" then hostid d
  else if String.eqb k "delay" then delay d
  else if String.eqb k "key" then key d
  else if String.eqb k "name" then name d
  else "".

(** A field the schema marks [ForceNew] differs between the state and the
    plan. *)
Definition requires_new (prior planned : ResourceData) : bool :=
  existsb
    (fun entry : string * Schema =>
       ForceNew entry.2
       && negb (String.eqb (common_field entry.1 prior)
                           (common_field entry.1 planned)))
    lldCommonSchema.

(** How the driver carried a change out. *)
Inductive Applied (World : Type) :=
| Updated (res : option error * ResourceData * Session World)
| Replaced (out : Outcome (option error * ResourceData * Session World)).

Arguments Updated {World} res.
Arguments Replaced {World} out.

(** Modelled from the spec: the driver that invokes the handlers is the
    plugin SDK, outside this repository. Section 4.1 has the host id
    immutable after creation, and section 4.4 has immutable fields never
    resent as changed, enforced at the schema level: a change of a field
    the schema marks [ForceNew] is carried out as a delete of the resource
    in the state followed by a create from the plan; every other change is
    an update, invoked on the plan under the identifier of the state. *)
Definition apply_change {World} (api : API World)
           (prior planned : ResourceData) (s : Session World)
           (c r : LLDHandler) : Applied World :=
  if requires_new prior planned
  then
    Replaced
      (let '(err, _, s1) := resourceLLDDelete api prior s in
       match err with
       | Some e => Returned (Some e, prior, s1)
       | None => resourceLLDCreate api (SetId "" planned) s1 c r
       end)
  else Updated (resourceLLDUpdate api (SetId (Id prior) planned) s c r).

(** The stored configuration under another name. *)
Definition renamed_config : ResourceData := Set_name "Filesystems" stored_config.

(** * Properties *)

(** ** Splitting and joining on the newline *)

Lemma Split_newline_nil : strings.Split "" newline = [""].
Proof. reflexivity. Qed.

Lemma Split_newline_cons (c : ascii) (s : string) :
  strings.Split (String c s) newline =
  if Ascii.eqb c newline_byte
  then "" :: strings.Split s newline
  else strings.cons_head c (strings.Split s newline).
Proof.
  unfold strings.Split, newline. cbn [strings.split_from String.prefix String.length].
  destruct (ascii_dec newline_byte c) as [<- | Hne].
  - rewrite Ascii.eqb_refl. destruct s; reflexivity.
  - destruct (Ascii.eqb_spec c newline_byte) as [-> | _]; [done | reflexivity].
Qed.

Lemma Split_newline_not_nil (s : string) : strings.Split s newline ≠ [].
Proof.
  induction s as [| c s IH].
  - done.
  - rewrite Split_newline_cons. destruct (Ascii.eqb c newline_byte); [done |].
    destruct (strings.Split s newline); [done | discriminate].
Qed.

Lemma Split_newline_free (e : string) :
  newline_free e = true → strings.Split e newline = [e].
Proof.
  unfold newline_free. induction e as [| c e IH]; [done |].
  cbn [strings.ContainsByte]. rewrite Split_newline_cons.
  destruct (Ascii.eqb c newline_byte); [done |].
  intros H. rewrite (IH H). reflexivity.
Qed.

Lemma Split_newline_app (e t : string) :
  newline_free e = true →
  strings.Split (e +:+ newline +:+ t) newline = e :: strings.Split t newline.
Proof.
  unfold newline_free. induction e as [| c e IH].
  - intros _. change ("" +:+ newline +:+ t) with (String newline_byte t).
    rewrite Split_newline_cons. reflexivity.
  - cbn [strings.ContainsByte]. change (String c e +:+ newline +:+ t)
      with (String c (e +:+ newline +:+ t)).
    rewrite Split_newline_cons.
    destruct (Ascii.eqb c newline_byte); [done |].
    intros H. rewrite (IH H). reflexivity.
Qed.

(** Joining fields that hold no newline and splitting the result gives the
    fields back, as long as there is one field at least. *)
Lemma Split_Join_newline (l : list string) :
  l ≠ [] →
  forallb newline_free l = true →
  strings.Split (strings.Join l newline) newline = l.
Proof.
  induction l as [| e l IH]; [done |].
  intros _ H. cbn [forallb] in H. apply andb_prop in H as [He Hl].
  destruct l as [| e' l].
  - cbn [strings.Join]. by apply Split_newline_free.
  - change (strings.Join (e :: e' :: l) newline)
      with (e +:+ newline +:+ strings.Join (e' :: l) newline).
    rewrite Split_newline_app by done. f_equal. by apply IH.
Qed.

Lemma Join_newline_cons_nil (l : list string) :
  l ≠ [] →
  strings.Join ("" :: l) newline = String newline_byte (strings.Join l newline).
Proof. destruct l as [| e l]; [done |]. reflexivity. Qed.

Lemma Join_newline_cons_head (c : ascii) (l : list string) :
  l ≠ [] →
  strings.Join (strings.cons_head c l) newline
  = String c (strings.Join l newline).
Proof.
  destruct l as [| e l]; [done |]. intros _.
  destruct l as [| e' l]; reflexivity.
Qed.

(** Joining what a split gave puts the string together again. *)
Lemma Join_Split_newline (s : string) :
  strings.Join (strings.Split s newline) newline = s.
Proof.
  induction s as [| c s IH]; [reflexivity |].
  rewrite Split_newline_cons.
  destruct (Ascii.eqb_spec c newline_byte) as [-> | Hne].
  - rewrite Join_newline_cons_nil by apply Split_newline_not_nil.
    by rewrite IH.
  - rewrite Join_newline_cons_head by apply Split_newline_not_nil.
    by rewrite IH.
Qed.

(** ** The counting loop *)

Lemma fill_loop_spec {A} (f : nat → A) (todo i : nat) (a : list A) :
  i + todo ≤ length a →
  fill_loop f i todo a = take i a ++ (f <$> seq i todo) ++ drop (i + todo) a.
Proof.
  revert i a. induction todo as [| todo IH]; intros i a Hlen.
  - cbn. rewrite Nat.add_0_r. by rewrite take_drop.
  - cbn [fill_loop seq fmap list_fmap].
    rewrite IH by (rewrite length_insert; lia).
    assert (Hi : i < length a) by lia.
    rewrite take_S_r with (x := f i) by (by apply list_lookup_insert_eq).
    rewrite take_insert_ge by lia.
    rewrite drop_insert_lt by lia.
    rewrite <- app_assoc. cbn.
    replace (i + S todo) with (S (i + todo)) by lia. reflexivity.
Qed.

Lemma fill_loop_all {A} (f : nat → A) (n : nat) (z : A) :
  fill_loop f 0 n (replicate n z) = f <$> seq 0 n.
Proof.
  rewrite fill_loop_spec by (rewrite length_replicate; lia).
  cbn. rewrite drop_ge by (rewrite length_replicate; lia).
  by rewrite app_nil_r.
Qed.

Lemma lldGeneratePreprocessors_eq (d : ResourceData) :
  lldGeneratePreprocessors d = generate_at d <$> seq 0 (length (preprocessor d)).
Proof. apply fill_loop_all. Qed.

Lemma flattenlldPreprocessors_eq (lld : LLDRule) :
  flattenlldPreprocessors lld = flatten_one <$> Preprocessors_ lld.
Proof.
  unfold flattenlldPreprocessors. rewrite fill_loop_all.
  apply list_eq. intros i. rewrite !list_lookup_fmap.
  destruct (decide (i < length (Preprocessors_ lld))) as [Hi | Hi].
  - rewrite lookup_seq_lt by done.
    destruct (lookup_lt_is_Some_2 _ _ Hi) as [p Hp].
    change (0 + i) with i. cbn [fmap option_fmap option_map].
    rewrite Hp. reflexivity.
  - rewrite lookup_seq_ge by lia. rewrite lookup_ge_None_2 by lia. reflexivity.
Qed.

Lemma lldGeneratePreprocessors_blocks (d : ResourceData) :
  lldGeneratePreprocessors d = generate_block <$> preprocessor d.
Proof.
  rewrite lldGeneratePreprocessors_eq.
  apply list_eq. intros i. rewrite !list_lookup_fmap.
  destruct (decide (i < length (preprocessor d))) as [Hi | Hi].
  - rewrite lookup_seq_lt by done.
    destruct (lookup_lt_is_Some_2 _ _ Hi) as [b Hb].
    change (0 + i) with i. cbn [fmap option_fmap option_map].
    unfold generate_at, Get_block. rewrite Hb. reflexivity.
  - rewrite lookup_seq_ge by lia. rewrite lookup_ge_None_2 by lia. reflexivity.
Qed.

(** ** Build and flatten *)

Lemma flatten_one_lookups (p : Preprocessor) :
  flatten_one p !! "type" = Some (VString (Type_ p))
  ∧ flatten_one p !! "params" = Some (VStrings (strings.Split (Params p) newline))
  ∧ flatten_one p !! "error_handler" = Some (VString (ErrorHandler p))
  ∧ flatten_one p !! "error_handler_params" = Some (VString (ErrorHandlerParams p)).
Proof. unfold flatten_one. repeat split; by simplify_map_eq. Qed.

Lemma flatten_build_eq (d : ResourceData) :
  flattenlldPreprocessors (buildLLDObject d)
  = (flatten_one ∘ generate_block) <$> preprocessor d.
Proof.
  rewrite flattenlldPreprocessors_eq. cbn [buildLLDObject Preprocessors_].
  rewrite lldGeneratePreprocessors_blocks. by rewrite <- list_fmap_compose.
Qed.

(** Where the round trip holds: for every configuration whose blocks each
    give one parameter at least, none with a newline in it, the builder joins the
    parameters of each block with newlines, in block order, and flattening
    the built rule gives back, in the same order, the type, the parameter
    list, the error handler and the error handler parameters of each block. *)
Theorem flatten_build_roundtrip (d : ResourceData) :
  params_given d = true →
  params_newline_free d = true →
  Preprocessors_ (buildLLDObject d) = generate_block <$> preprocessor d
  ∧ roundtrip_holds d.
Proof.
  intros Hgiven Hfree. split.
  { apply lldGeneratePreprocessors_blocks. }
  unfold roundtrip_holds. rewrite flatten_build_eq.
  unfold params_given, params_newline_free in *.
  induction (preprocessor d) as [| b bs IH]; [constructor |].
  cbn [forallb] in Hgiven, Hfree.
  apply andb_prop in Hgiven as [Hb Hbs], Hfree as [Hfb Hfbs].
  cbn [fmap list_fmap]. constructor; [| by apply IH].
  destruct (flatten_one_lookups (generate_block b)) as (Ht & Hp & He & Hep).
  change ((flatten_one ∘ generate_block) b) with (flatten_one (generate_block b)).
  repeat split; try done.
  rewrite Hp. cbn [generate_block Params]. do 2 f_equal.
  apply Split_Join_newline; [| done].
  apply negb_true_iff, bool_decide_eq_false in Hb. done.
Qed.

(** The entry of the specification: type 5 with the parameters a and b goes
    over the wire as one string, a and b with a newline between, and comes
    back as the two parameters. *)
Lemma flatten_build_roundtrip_sample :
  (params_given sample_config = true ∧ params_newline_free sample_config = true)
  ∧ Params <$> Preprocessors_ (buildLLDObject sample_config)
    = [String "a" (String newline_byte "b")]
  ∧ flat_params (flattenlldPreprocessors (buildLLDObject sample_config)) 0
    = Some (VStrings ["a"; "b"])
  ∧ roundtrip_holds sample_config.
Proof.
  split; [split; reflexivity |].
  split; [reflexivity |]. split; [reflexivity |].
  apply (flatten_build_roundtrip sample_config); reflexivity.
Defined.

(** C9: every flattened entry has a parameter list, and that list is never
    empty; a block without parameters is built into the empty wire string and
    comes back as the list of one empty string. *)
Theorem flatten_params_never_empty :
  (∀ (lld : LLDRule) (i : nat) (m : gmap string Value),
      flattenlldPreprocessors lld !! i = Some m →
      ∃ parr, m !! "params" = Some (VStrings parr) ∧ 1 ≤ length parr)
  ∧ (∀ (d : ResourceData) (i : nat) (b : PreprocessorBlock),
      preprocessor d !! i = Some b →
      b_params b = [] →
      Params <$> (Preprocessors_ (buildLLDObject d) !! i) = Some ""
      ∧ flat_params (flattenlldPreprocessors (buildLLDObject d)) i
        = Some (VStrings [""])).
Proof.
  split.
  - intros lld i m Hm. rewrite flattenlldPreprocessors_eq in Hm.
    apply list_lookup_fmap_Some in Hm as (p & -> & Hp).
    exists (strings.Split (Params p) newline). split.
    + apply flatten_one_lookups.
    + pose proof (Split_newline_not_nil (Params p)) as Hne.
      destruct (strings.Split (Params p) newline); [done | cbn; lia].
  - intros d i b Hb Hnil. unfold flat_params.
    rewrite flatten_build_eq. cbn [buildLLDObject Preprocessors_].
    rewrite lldGeneratePreprocessors_blocks, !list_lookup_fmap, Hb.
    cbn. unfold generate_block. rewrite Hnil. split; [reflexivity |].
    rewrite (proj1 (proj2 (flatten_one_lookups _))). reflexivity.
Qed.

Lemma flatten_params_never_empty_bare :
  (∃ parr,
      flat_params (flattenlldPreprocessors (buildLLDObject sample_config)) 0
      = Some (VStrings parr) ∧ 1 ≤ length parr)
  ∧ Params <$> (Preprocessors_ (buildLLDObject bare_config) !! 0) = Some ""
  ∧ flat_params (flattenlldPreprocessors (buildLLDObject bare_config)) 0
    = Some (VStrings [""]).
Proof.
  destruct flatten_params_never_empty as [Hall Hbare]. split.
  - destruct (Hall (buildLLDObject sample_config) 0
                   (flatten_one (generate_block sample_block)) eq_refl)
      as (parr & Hp & Hlen).
    exists parr. split; [| exact Hlen].
    unfold flat_params. cbn. exact Hp.
  - exact (Hbare bare_config 0 bare_block eq_refl eq_refl).
Defined.

(** C10: the builder gives as many preprocessors as the configuration counts
    blocks, the one at index [i] built from block [i]; the flattener gives
    one map for each preprocessor of the rule, the one at index [i] made from
    preprocessor [i]. Neither needs a condition on the strings. *)
Theorem build_flatten_positions :
  (∀ d : ResourceData,
      length (lldGeneratePreprocessors d) = Get_preprocessor_count d
      ∧ ∀ (i : nat) (b : PreprocessorBlock),
          preprocessor d !! i = Some b →
          lldGeneratePreprocessors d !! i
          = Some (mkPreprocessor (b_type b) (strings.Join (b_params b) newline)
                                 (b_error_handler b) (b_error_handler_params b)))
  ∧ (∀ lld : LLDRule,
      length (flattenlldPreprocessors lld) = length (Preprocessors_ lld)
      ∧ ∀ (i : nat) (p : Preprocessor),
          Preprocessors_ lld !! i = Some p →
          ∃ (m : gmap string Value) (parr : list string),
            flattenlldPreprocessors lld !! i = Some m
            ∧ m !! "type" = Some (VString (Type_ p))
            ∧ m !! "params" = Some (VStrings parr)
            ∧ parr = strings.Split (Params p) newline
            ∧ strings.Join parr newline = Params p
            ∧ m !! "error_handler" = Some (VString (ErrorHandler p))
            ∧ m !! "error_handler_params"
              = Some (VString (ErrorHandlerParams p))).
Proof.
  split.
  - intros d. rewrite lldGeneratePreprocessors_blocks. split.
    + by rewrite length_fmap.
    + intros i b Hb. by rewrite list_lookup_fmap, Hb.
  - intros lld. rewrite flattenlldPreprocessors_eq. split.
    + by rewrite length_fmap.
    + intros i p Hp.
      destruct (flatten_one_lookups p) as (Ht & Hpar & He & Hep).
      exists (flatten_one p), (strings.Split (Params p) newline).
      rewrite list_lookup_fmap, Hp.
      repeat split; try done. apply Join_Split_newline.
Qed.

Lemma build_flatten_positions_sample :
  lldGeneratePreprocessors sample_config !! 0
  = Some (mkPreprocessor "5" (String "a" (String newline_byte "b")) "0" "")
  ∧ ∃ m : gmap string Value,
      flattenlldPreprocessors (sample_rule "7") !! 0 = Some m
      ∧ m !! "type" = Some (VString "5")
      ∧ m !! "params" = Some (VStrings ["a"; "b"])
      ∧ m !! "error_handler" = Some (VString "0")
      ∧ m !! "error_handler_params" = Some (VString "").
Proof.
  destruct build_flatten_positions as [Hbuild Hflat]. split.
  - exact (proj2 (Hbuild sample_config) 0 sample_block eq_refl).
  - destruct (proj2 (Hflat (sample_rule "7")) 0
                    (mkPreprocessor "5" (String "a" (String newline_byte "b"))
                                    "0" "")
                    eq_refl)
      as (m & parr & Hm & Ht & Hp & Hparr & _ & He & Hep).
    exists m. rewrite Hparr in Hp.
    split; [exact Hm |]. split; [exact Ht |]. split; [exact Hp |].
    split; [exact He | exact Hep].
Defined.

(** ** The lifecycle handlers *)

(** The rule the builder makes, field by field. *)
Lemma buildLLDObject_fields (d : ResourceData) :
  buildLLDObject d
  = {| ItemID := "";
       Key := key d;
       HostID := hostid d;
       Name := name d;
       Delay := delay d;
       Preprocessors_ := generate_block <$> preprocessor d;
       Extra := ∅ |}.
Proof. unfold buildLLDObject. by rewrite lldGeneratePreprocessors_blocks. Qed.

Section HandlerProperties.

Context {World : Type}.
Variable api : API World.

(** A read makes one call on the client, the query by identifier. *)
Lemma read_calls (d : ResourceData) (s : Session World) (r : LLDHandler) :
  calls (res_session (resourceLLDRead api d s r))
  = calls s ++ [CallLLDsGet (read_params d)].
Proof.
  unfold resourceLLDRead, do_LLDsGet.
  destruct (LLDsGet api (read_params d) (world s)) as [[llds err] w].
  destruct err as [e |]; [reflexivity |].
  destruct llds as [| lld [| lld' rest]]; cbn; try reflexivity.
  destruct (r _ lld) as [d' lld']. reflexivity.
Qed.

(** C2: when the query of a read gives no rule back, the read returns no
    error and the record it leaves is the one it was given with the
    identifier set to the empty string: every other field is as it was. *)
Theorem read_zero_matches_clears_id
        (d : ResourceData) (s : Session World) (r : LLDHandler) (w' : World) :
  LLDsGet api (read_params d) (world s) = ([], None, w') →
  let res := resourceLLDRead api d s r in
  res_err res = None
  ∧ res_data res = SetId "" d
  ∧ Id (res_data res) = ""
  ∧ hostid (res_data res) = hostid d
  ∧ delay (res_data res) = delay d
  ∧ key (res_data res) = key d
  ∧ name (res_data res) = name d
  ∧ preprocessor (res_data res) = preprocessor d
  ∧ attrs (res_data res) = attrs d.
Proof.
  intros Hget. unfold resourceLLDRead, do_LLDsGet. rewrite Hget.
  cbn. repeat split.
Qed.

(** C3: when the query of a read gives two rules or more back, the read
    returns an error and leaves the record, identifier included, as it was. *)
Theorem read_many_matches_fails
        (d : ResourceData) (s : Session World) (r : LLDHandler)
        (llds : list LLDRule) (w' : World) :
  LLDsGet api (read_params d) (world s) = (llds, None, w') →
  2 ≤ length llds →
  let res := resourceLLDRead api d s r in
  res_err res = Some "multiple llds found"
  ∧ res_data res = d.
Proof.
  intros Hget Hlen. unfold resourceLLDRead, do_LLDsGet. rewrite Hget.
  destruct llds as [| lld [| lld' rest]]; cbn in Hlen; try lia.
  cbn. split; reflexivity.
Qed.

(** C4: a create builds the rule from the configuration (key, host, name
    and delay of the record, one preprocessor for each block with the
    parameters joined by newlines, and no identifier), hands it to the
    pre-submit handler, and calls the client's create with the batch of that
    one rule. When the call gives an error, the create returns it, with the
    record as the handler left it and no further call; when it gives none,
    the identifier the first rule of the batch now carries is stored, and
    the result is that of the read made next. *)
Theorem create_submits_then_reads
        (d : ResourceData) (s : Session World) (c r : LLDHandler)
        (d1 : ResourceData) (lld1 : LLDRule)
        (llds' : list LLDRule) (err : option error) (w' : World) :
  c d {| ItemID := "";
         Key := key d;
         HostID := hostid d;
         Name := name d;
         Delay := delay d;
         Preprocessors_ := generate_block <$> preprocessor d;
         Extra := ∅ |}
  = (d1, lld1) →
  LLDsCreate api [lld1] (world s) = (llds', err, w') →
  let s1 := mkSession w' (calls s ++ [CallLLDsCreate [lld1]]) in
  match err with
  | Some e => resourceLLDCreate api d s c r = Returned (Some e, d1, s1)
  | None =>
      ∀ (lld0 : LLDRule) (rest : list LLDRule),
        llds' = lld0 :: rest →
        let d2 := SetId (ItemID lld0) d1 in
        resourceLLDCreate api d s c r = Returned (resourceLLDRead api d2 s1 r)
        ∧ calls (res_session (resourceLLDRead api d2 s1 r))
          = calls s ++ [CallLLDsCreate [lld1]; CallLLDsGet (read_params d2)]
  end.
Proof.
  intros Hc Hcreate s1. rewrite <- buildLLDObject_fields in Hc.
  unfold resourceLLDCreate, do_LLDsCreate.
  rewrite Hc, Hcreate. destruct err as [e |]; [reflexivity |].
  intros lld0 rest ->. cbv zeta. split; [reflexivity |].
  rewrite read_calls. cbn. by rewrite <- app_assoc.
Qed.

(** C5: an update builds the rule from the configuration (key, host, name
    and delay of the record, one preprocessor for each block with the
    parameters joined by newlines), gives it the identifier of the record,
    hands it to the pre-submit handler, and calls
    the client's update with the batch of that one rule. An error of the call
    is returned with no further call; without one the result is that of the
    read made next. *)
Theorem update_submits_then_reads
        (d : ResourceData) (s : Session World) (c r : LLDHandler)
        (d1 : ResourceData) (lld1 : LLDRule) (err : option error) (w' : World) :
  c d {| ItemID := Id d;
         Key := key d;
         HostID := hostid d;
         Name := name d;
         Delay := delay d;
         Preprocessors_ := generate_block <$> preprocessor d;
         Extra := ∅ |}
  = (d1, lld1) →
  LLDsUpdate api [lld1] (world s) = (err, w') →
  let s1 := mkSession w' (calls s ++ [CallLLDsUpdate [lld1]]) in
  match err with
  | Some e => resourceLLDUpdate api d s c r = (Some e, d1, s1)
  | None =>
      resourceLLDUpdate api d s c r = resourceLLDRead api d1 s1 r
      ∧ calls (res_session (resourceLLDRead api d1 s1 r))
        = calls s ++ [CallLLDsUpdate [lld1]; CallLLDsGet (read_params d1)]
  end.
Proof.
  intros Hc Hupdate s1.
  change {| ItemID := Id d; Key := key d; HostID := hostid d; Name := name d;
            Delay := delay d;
            Preprocessors_ := generate_block <$> preprocessor d; Extra := ∅ |}
    with (set_ItemID (Id d)
            {| ItemID := ""; Key := key d; HostID := hostid d; Name := name d;
               Delay := delay d;
               Preprocessors_ := generate_block <$> preprocessor d;
               Extra := ∅ |}) in Hc.
  rewrite <- buildLLDObject_fields in Hc.
  unfold resourceLLDUpdate, do_LLDsUpdate.
  rewrite Hc, Hupdate. destruct err as [e |]; [reflexivity |].
  split; [reflexivity |].
  rewrite read_calls. cbn. by rewrite <- app_assoc.
Qed.

(** C6, amended: every read queries the client once, by the identifier of
    the record, and the query has two entries and no more: the list of that
    one identifier under the key lldids, and extend under
    selectPreprocessing. *)
Theorem read_queries_by_lldids
        (d : ResourceData) (s : Session World) (r : LLDHandler) :
  calls (res_session (resourceLLDRead api d s r))
  = calls s ++ [CallLLDsGet (read_params d)]
  ∧ read_params d !! "lldids" = Some (VStrings [Id d])
  ∧ read_params d !! "selectPreprocessing" = Some (VString "extend")
  ∧ dom (read_params d) = {[ "lldids"; "selectPreprocessing" ]}.
Proof.
  split; [apply read_calls |]. unfold read_params.
  split; [by simplify_map_eq |]. split; [by simplify_map_eq |].
  rewrite !dom_insert_L, dom_empty_L. set_solver.
Qed.

(** C7: a delete calls the client's delete once, with the list of the one
    identifier of the record, and returns what the call returns, error or
    none; the record is left as it was. *)
Theorem delete_submits_id (d : ResourceData) (s : Session World) :
  resourceLLDDelete api d s
  = ((LLDDeleteByIds api [Id d] (world s)).1, d,
     mkSession (LLDDeleteByIds api [Id d] (world s)).2
               (calls s ++ [CallLLDDeleteByIds [Id d]])).
Proof.
  unfold resourceLLDDelete, do_LLDDeleteByIds.
  destruct (LLDDeleteByIds api [Id d] (world s)) as [err w]. reflexivity.
Qed.

End HandlerProperties.

(** ** The handlers against the in-memory server *)

(** A read of identifier 7 on a server that holds no rule. *)
Lemma read_zero_matches_on_empty_server :
  LLDsGet MemoryServer.api (read_params stored_config)
          (world MemoryServer.start)
  = ([], None, world MemoryServer.start)
  ∧ res_err read_on_empty = None
  ∧ Id (res_data read_on_empty) = ""
  ∧ preprocessor (res_data read_on_empty) = preprocessor stored_config.
Proof.
  split; [reflexivity |].
  pose proof (read_zero_matches_clears_id MemoryServer.api stored_config
                MemoryServer.start no_handler (world MemoryServer.start) eq_refl)
    as H.
  cbv zeta in H. destruct H as (He & _ & Hid & _ & _ & _ & _ & Hp & _).
  repeat split; assumption.
Defined.

(** A read of identifier 7 on the server that holds two rules under it. *)
Lemma read_many_matches_on_twin_server :
  length (LLDsGet MemoryServer.api (read_params stored_config)
                  (world twin_rules)).1.1 = 2
  ∧ res_err read_on_twins = Some "multiple llds found"
  ∧ res_data read_on_twins = stored_config.
Proof.
  split; [reflexivity |].
  apply (read_many_matches_fails MemoryServer.api stored_config twin_rules
           no_handler (MemoryServer.rules (world twin_rules)) (world twin_rules)).
  - reflexivity.
  - cbn. lia.
Defined.

(** A create of the sample configuration on a fresh server gets identifier
    1 and reads it back; on the server that holds the rule already, the
    create is refused and no identifier is stored. *)
Lemma create_on_memory_server :
  (∃ res,
      resourceLLDCreate MemoryServer.api sample_config MemoryServer.start
                        no_handler no_handler = Returned res
      ∧ res_err res = None
      ∧ Id (res_data res) = "1"
      ∧ calls (res_session res)
        = [CallLLDsCreate [sample_rule ""];
           CallLLDsGet (read_params (SetId "1" sample_config))])
  ∧ resourceLLDCreate MemoryServer.api sample_config one_rule
                      no_handler no_handler
    = Returned (Some "discovery rule already exists", sample_config,
                mkSession (world one_rule)
                          [CallLLDsCreate [sample_rule ""]]).
Proof.
  split.
  - pose proof (create_submits_then_reads MemoryServer.api sample_config
                  MemoryServer.start no_handler no_handler
                  sample_config (sample_rule "")
                  [sample_rule "1"] None
                  (MemoryServer.mkWorld 2
                     [sample_rule "1"])
                  eq_refl eq_refl) as H.
    cbv zeta in H.
    destruct (H _ _ eq_refl) as [Hres Hcalls].
    eexists. split; [exact Hres |].
    split; [reflexivity |]. split; [reflexivity |]. exact Hcalls.
  - exact (create_submits_then_reads MemoryServer.api sample_config
             one_rule no_handler no_handler
             sample_config (sample_rule "")
             [sample_rule ""]
             (Some "discovery rule already exists") (world one_rule)
             eq_refl eq_refl).
Defined.

(** An update of the stored configuration on the server that holds it. *)
Lemma update_on_memory_server :
  update_stored = resourceLLDRead MemoryServer.api stored_config
          (mkSession (world one_rule) [CallLLDsUpdate [sample_rule "7"]]) no_handler
  ∧ calls (res_session update_stored)
    = [CallLLDsUpdate [sample_rule "7"]; CallLLDsGet (read_params stored_config)].
Proof.
  unfold update_stored.
  pose proof (update_submits_then_reads MemoryServer.api stored_config
                one_rule no_handler no_handler stored_config (sample_rule "7")
                None (world one_rule) eq_refl eq_refl) as H.
  cbv zeta in H. destruct H as [Hres Hcalls].
  split; [exact Hres |]. rewrite Hres. exact Hcalls.
Defined.

(** C6, as the specification words it, fails: the query a read makes is not
    the one with the identifiers under the key ids; that key is not in it. *)
Lemma read_query_has_no_ids_key :
  calls (res_session (resourceLLDRead MemoryServer.api stored_config one_rule
                                      no_handler))
  ≠ [CallLLDsGet (claimed_read_params stored_config)]
  ∧ read_params stored_config !! "ids" = None
  ∧ claimed_read_params stored_config !! "ids" = Some (VStrings ["7"]).
Proof.
  split; [| split; reflexivity].
  rewrite read_calls. cbn [calls one_rule app].
  intros H.
  apply (f_equal (fun l => match l with
                           | [CallLLDsGet params] => params !! "ids"
                           | _ => None
                           end)) in H.
  vm_compute in H. discriminate H.
Qed.


(** * Further properties of the builder and the flattener *)

Lemma Split_newline_length (s : string) :
  length (strings.Split s newline) = S (count_newlines s).
Proof.
  induction s as [| c s IH]; [reflexivity |].
  rewrite Split_newline_cons. cbn [count_newlines].
  destruct (Ascii.eqb c newline_byte).
  - cbn [length]. by rewrite IH.
  - destruct (strings.Split s newline) as [| f fs] eqn:Hs.
    + by destruct (Split_newline_not_nil s).
    + cbn [strings.cons_head length] in *. lia.
Qed.

Lemma Split_newline_fields_free (s : string) :
  forallb newline_free (strings.Split s newline) = true.
Proof.
  induction s as [| c s IH]; [reflexivity |].
  rewrite Split_newline_cons.
  destruct (Ascii.eqb c newline_byte) eqn:Hc.
  - cbn [forallb]. by rewrite IH.
  - destruct (strings.Split s newline) as [| f fs]; cbn [strings.cons_head forallb] in *.
    + unfold newline_free. cbn. by rewrite Hc.
    + apply andb_prop in IH as [Hf Hfs]. rewrite Hfs, andb_true_r.
      unfold newline_free in *. cbn. by rewrite Hc.
Qed.

(** A parameter list survives the joining and the splitting exactly when it
    is not empty and none of its strings holds a newline. *)
Lemma Split_Join_newline_iff (l : list string) :
  strings.Split (strings.Join l newline) newline = l
  ↔ l ≠ [] ∧ forallb newline_free l = true.
Proof.
  split.
  - intros H. split.
    + intros ->. by destruct (Split_newline_not_nil "").
    + rewrite <- H. apply Split_newline_fields_free.
  - intros [Hne Hfree]. by apply Split_Join_newline.
Qed.

Lemma flatten_one_no_id (p : Preprocessor) : flatten_one p !! "id" = None.
Proof. unfold flatten_one. by simplify_map_eq. Qed.

Lemma block_of_map_flatten_one (p : Preprocessor) :
  block_of_map (flatten_one p) = block_of_wire p.
Proof.
  destruct (flatten_one_lookups p) as (Ht & Hp & He & Hep).
  unfold block_of_map. by rewrite flatten_one_no_id, Ht, Hp, He, Hep.
Qed.

Lemma Set_preprocessor_flatten (lld : LLDRule) (d : ResourceData) :
  preprocessor (Set_preprocessor (flattenlldPreprocessors lld) d)
  = block_of_wire <$> Preprocessors_ lld.
Proof.
  cbn [Set_preprocessor preprocessor]. rewrite flattenlldPreprocessors_eq.
  rewrite <- list_fmap_compose. apply list_fmap_ext.
  intros i p _. apply block_of_map_flatten_one.
Qed.

(** X3: the way back is lossless: for every rule of the remote system, building
    the preprocessors from the record that holds the flattened rule gives the
    preprocessors of the rule, parameter strings included, whatever they
    hold. *)
Theorem generate_of_flattened (lld : LLDRule) (d : ResourceData) :
  lldGeneratePreprocessors (Set_preprocessor (flattenlldPreprocessors lld) d)
  = Preprocessors_ lld.
Proof.
  rewrite lldGeneratePreprocessors_blocks, Set_preprocessor_flatten.
  rewrite <- list_fmap_compose. rewrite <- (list_fmap_id (Preprocessors_ lld)) at 2.
  apply list_fmap_ext. intros i [t ps e ep] _.
  unfold compose, generate_block, block_of_wire.
  cbn [b_type b_params b_error_handler b_error_handler_params
       Type_ Params ErrorHandler ErrorHandlerParams id].
  by rewrite Join_Split_newline.
Qed.

(** X4: the shape of the flattened parameters: for the preprocessor at each
    index, the list under "params" has one string more than the wire string
    has newlines, and no string of it holds a newline. *)
Theorem flattened_params_shape (lld : LLDRule) :
  Forall2
    (fun (p : Preprocessor) (m : gmap string Value) =>
       ∃ parr, m !! "params" = Some (VStrings parr)
               ∧ length parr = S (count_newlines (Params p))
               ∧ forallb newline_free parr = true)
    (Preprocessors_ lld) (flattenlldPreprocessors lld).
Proof.
  rewrite flattenlldPreprocessors_eq.
  induction (Preprocessors_ lld) as [| p ps IH]; [constructor |].
  cbn [fmap list_fmap]. constructor; [| exact IH].
  exists (strings.Split (Params p) newline). split; [apply flatten_one_lookups |].
  split; [apply Split_newline_length | apply Split_newline_fields_free].
Qed.

(** X5: the flattened maps hold the four keys the source sets and no other; the
    identifier of a block, which the schema declares computed, is never
    among them, and the blocks a read stores have it empty. *)
Theorem flattened_keys (lld : LLDRule) (d : ResourceData) :
  Forall
    (fun m : gmap string Value =>
       dom m = {[ "type"; "params"; "error_handler"; "error_handler_params" ]}
       ∧ m !! "id" = None)
    (flattenlldPreprocessors lld)
  ∧ Forall (fun b => b_id b = "")
           (preprocessor (Set_preprocessor (flattenlldPreprocessors lld) d)).
Proof.
  split.
  - rewrite flattenlldPreprocessors_eq. apply Forall_fmap, Forall_forall.
    intros p _. cbn. split; [| apply flatten_one_no_id].
    unfold flatten_one. rewrite !dom_insert_L, dom_empty_L. set_solver.
  - rewrite Set_preprocessor_flatten. apply Forall_fmap, Forall_forall.
    intros p _. reflexivity.
Qed.

(** X6: what the builder reads: two records with the same host, key, name and
    delay, and the same blocks but for their identifiers, build the same
    rule; the identifier of the record, the identifiers of the blocks and
    the attributes outside the common schema play no part, and the rule's
    own identifier is left empty. *)
Theorem build_reads_common_fields (d d' : ResourceData) :
  hostid d = hostid d' →
  key d = key d' →
  name d = name d' →
  delay d = delay d' →
  clear_id <$> preprocessor d = clear_id <$> preprocessor d' →
  buildLLDObject d = buildLLDObject d' ∧ ItemID (buildLLDObject d) = "".
Proof.
  intros Hh Hk Hn Hd Hb. split; [| reflexivity].
  unfold buildLLDObject. rewrite Hh, Hk, Hn, Hd. f_equal.
  rewrite !lldGeneratePreprocessors_blocks.
  assert (Hg : ∀ l : list PreprocessorBlock,
             generate_block <$> l = generate_block <$> (clear_id <$> l)).
  { intros l. rewrite <- list_fmap_compose. apply list_fmap_ext.
    intros i b _. reflexivity. }
  by rewrite (Hg (preprocessor d)), (Hg (preprocessor d')), Hb.
Qed.

Lemma build_reads_common_fields_stored :
  buildLLDObject stored_config = buildLLDObject sample_config
  ∧ ItemID (buildLLDObject stored_config) = "".
Proof.
  apply (build_reads_common_fields stored_config sample_config); reflexivity.
Defined.

Lemma roundtrip_holds_blocks (d : ResourceData) :
  roundtrip_holds d
  ↔ Forall (fun b => strings.Split (strings.Join (b_params b) newline) newline
                     = b_params b)
           (preprocessor d).
Proof.
  unfold roundtrip_holds. rewrite flatten_build_eq.
  induction (preprocessor d) as [| b bs IH].
  - split; constructor.
  - cbn [fmap list_fmap].
    change ((flatten_one ∘ generate_block) b) with (flatten_one (generate_block b)).
    destruct (flatten_one_lookups (generate_block b)) as (Ht & Hp & He & Hep).
    split.
    + intros H. apply Forall2_cons_1 in H as [(_ & Hpar & _) Hrest].
      constructor; [| by apply IH].
      rewrite Hp in Hpar. by injection Hpar.
    + intros H. apply Forall_cons_1 in H as [Hb Hrest].
      constructor; [| by apply IH].
      repeat split; try done. rewrite Hp. cbn [generate_block Params].
      by rewrite Hb.
Qed.

(** X7: the round trip of a record through the builder and the flattener gives
    the blocks back exactly when every block gives one parameter at least
    and no parameter holds a newline: the two conditions are needed, and
    they are enough. *)
Theorem roundtrip_exactly_when (d : ResourceData) :
  roundtrip_holds d
  ↔ params_given d = true ∧ params_newline_free d = true.
Proof.
  rewrite roundtrip_holds_blocks. unfold params_given, params_newline_free.
  induction (preprocessor d) as [| b bs IH].
  - split; [done | constructor].
  - cbn [forallb]. rewrite Forall_cons, IH, Split_Join_newline_iff.
    rewrite !andb_true_iff, negb_true_iff, bool_decide_eq_false. tauto.
Qed.

Lemma roundtrip_exactly_when_samples :
  roundtrip_holds sample_config ∧ ¬ roundtrip_holds bare_config.
Proof.
  split.
  - apply (proj2 (roundtrip_exactly_when sample_config)). split; reflexivity.
  - intros H. apply (proj1 (roundtrip_exactly_when bare_config)) in H as [H _].
    discriminate H.
Defined.

(** * Further properties of the lifecycle handlers *)

Lemma blocks_of_built (d : ResourceData) :
  params_given d = true →
  params_newline_free d = true →
  block_of_wire <$> lldGeneratePreprocessors d = clear_id <$> preprocessor d.
Proof.
  intros Hgiven Hfree. rewrite lldGeneratePreprocessors_blocks.
  unfold params_given, params_newline_free in *.
  induction (preprocessor d) as [| b bs IH]; [reflexivity |].
  cbn [forallb] in Hgiven, Hfree.
  apply andb_prop in Hgiven as [Hb Hbs], Hfree as [Hfb Hfbs].
  cbn [fmap list_fmap]. f_equal; [| by apply IH].
  unfold block_of_wire, clear_id, generate_block.
  cbn [Type_ Params ErrorHandler ErrorHandlerParams]. f_equal.
  apply Split_Join_newline; [| done].
  by apply negb_true_iff, bool_decide_eq_false in Hb.
Qed.

Section FurtherHandlerProperties.

Context {World : Type}.
Variable api : API World.

(** The record a read holds once its setters have run on the one rule found. *)
Lemma read_one_match (d : ResourceData) (s : Session World) (r : LLDHandler)
      (lld : LLDRule) (w' : World) :
  LLDsGet api (read_params d) (world s) = ([lld], None, w') →
  resourceLLDRead api d s r
  = (None,
     (r (mkResourceData (ItemID lld) (HostID lld) (Delay lld) (Key lld)
                        (Name lld) (block_of_wire <$> Preprocessors_ lld)
                        (attrs d))
        lld).1,
     mkSession w' (calls s ++ [CallLLDsGet (read_params d)])).
Proof.
  intros Hget. unfold resourceLLDRead, do_LLDsGet. rewrite Hget.
  cbn [length Nat.ltb Nat.leb].
  pose proof (Set_preprocessor_flatten lld) as Hflat.
  cbn [Set_preprocessor preprocessor] in Hflat.
  unfold Set_preprocessor, Set_delay, Set_name, Set_key, Set_hostid, SetId.
  cbn [Id hostid delay key name preprocessor attrs].
  rewrite (Hflat d). by destruct (r _ lld).
Qed.

(** X1: an error of the query ends a read at once: the error is returned as it
    is and the record, identifier included, is left as it was, whatever list
    came with the error. *)
Theorem read_query_error_propagates
        (d : ResourceData) (s : Session World) (r : LLDHandler)
        (llds : list LLDRule) (e : error) (w' : World) :
  LLDsGet api (read_params d) (world s) = (llds, Some e, w') →
  resourceLLDRead api d s r
  = (Some e, d, mkSession w' (calls s ++ [CallLLDsGet (read_params d)])).
Proof.
  intros Hget. unfold resourceLLDRead, do_LLDsGet. by rewrite Hget.
Qed.

(** X2: when the query gives exactly one rule, the read returns no error and the
    post-read handler is the last to touch the record: it is given the
    record with the identifier, host, key, name and delay of the rule, one
    block for each preprocessor of the rule with the parameter string split
    at the newlines and an empty block identifier, and the attributes
    outside the common schema as they were; what the handler does to its
    copy of the rule is dropped. *)
Theorem read_one_match_populates
        (d : ResourceData) (s : Session World) (r : LLDHandler)
        (lld : LLDRule) (w' : World) :
  LLDsGet api (read_params d) (world s) = ([lld], None, w') →
  ∃ d',
    res_err (resourceLLDRead api d s r) = None
    ∧ res_data (resourceLLDRead api d s r) = (r d' lld).1
    ∧ Id d' = ItemID lld
    ∧ hostid d' = HostID lld
    ∧ key d' = Key lld
    ∧ name d' = Name lld
    ∧ delay d' = Delay lld
    ∧ preprocessor d' = block_of_wire <$> Preprocessors_ lld
    ∧ attrs d' = attrs d.
Proof.
  intros Hget. rewrite (read_one_match d s r lld w' Hget).
  eexists (mkResourceData _ _ _ _ _ _ _). repeat split.
Qed.

(** X8: no drift on read: when the one rule the query gives carries what the
    builder makes of the record, every block gives one parameter at least
    and no parameter holds a newline, a read without post-read handler
    leaves the host, key, name, delay and blocks of the record as they were
    (the computed block identifiers emptied) and takes the identifier of the
    rule. *)
Theorem read_echo_no_drift
        (d : ResourceData) (s : Session World) (lld : LLDRule) (w' : World) :
  LLDsGet api (read_params d) (world s) = ([lld], None, w') →
  echoes d lld →
  params_given d = true →
  params_newline_free d = true →
  resourceLLDRead api d s no_handler
  = (None, synced (ItemID lld) d,
     mkSession w' (calls s ++ [CallLLDsGet (read_params d)])).
Proof.
  intros Hget (Hk & Hh & Hn & Hd & Hp) Hgiven Hfree.
  rewrite (read_one_match d s no_handler lld w' Hget).
  unfold no_handler, synced. cbn [fst].
  by rewrite Hk, Hh, Hn, Hd, Hp, blocks_of_built.
Qed.

(** X9: create, then read: when every block gives one parameter at least
    and no parameter holds a newline, the create call succeeds and the query
    that follows gives the one rule that carries what was built, a create
    without handlers returns no error and leaves the record with the identifier of
    that rule and its configuration unchanged; the client saw the create
    call and the query by the identifier the create call assigned, in that
    order, and nothing else. *)
Theorem create_then_read_no_drift
        (d : ResourceData) (s : Session World)
        (lld0 lld1 : LLDRule) (rest : list LLDRule) (w1 w2 : World) :
  LLDsCreate api [buildLLDObject d] (world s) = (lld0 :: rest, None, w1) →
  LLDsGet api (read_params (SetId (ItemID lld0) d)) w1 = ([lld1], None, w2) →
  echoes d lld1 →
  params_given d = true →
  params_newline_free d = true →
  resourceLLDCreate api d s no_handler no_handler
  = Returned
      (None, synced (ItemID lld1) d,
       mkSession w2
         (calls s ++ [CallLLDsCreate [buildLLDObject d];
                      CallLLDsGet (read_params (SetId (ItemID lld0) d))])).
Proof.
  intros Hcreate Hget Hecho Hgiven Hfree.
  unfold resourceLLDCreate, do_LLDsCreate, no_handler at 1.
  rewrite Hcreate. f_equal.
  rewrite (read_echo_no_drift (SetId (ItemID lld0) d) _ lld1 w2);
    [| exact Hget | exact Hecho | exact Hgiven | exact Hfree].
  cbn [calls]. by rewrite <- app_assoc.
Qed.

(** X10: update, then read: when every block gives one parameter at least
    and no parameter holds a newline, the update call succeeds and the query
    that follows gives the one rule that carries what was built, an update
    without handlers returns no error and leaves the configuration of the
    record unchanged; the rule submitted carries the identifier of the
    record, and the client saw the update call and the query, in that
    order, and nothing else. *)
Theorem update_then_read_no_drift
        (d : ResourceData) (s : Session World) (lld1 : LLDRule) (w1 w2 : World) :
  LLDsUpdate api [set_ItemID (Id d) (buildLLDObject d)] (world s) = (None, w1) →
  LLDsGet api (read_params d) w1 = ([lld1], None, w2) →
  echoes d lld1 →
  params_given d = true →
  params_newline_free d = true →
  resourceLLDUpdate api d s no_handler no_handler
  = (None, synced (ItemID lld1) d,
     mkSession w2
       (calls s ++ [CallLLDsUpdate [set_ItemID (Id d) (buildLLDObject d)];
                    CallLLDsGet (read_params d)])).
Proof.
  intros Hupdate Hget Hecho Hgiven Hfree.
  unfold resourceLLDUpdate, do_LLDsUpdate, no_handler at 1.
  rewrite Hupdate.
  rewrite (read_echo_no_drift d _ lld1 w2);
    [| exact Hget | exact Hecho | exact Hgiven | exact Hfree].
  cbn [calls]. by rewrite <- app_assoc.
Qed.

End FurtherHandlerProperties.

(** ** The further properties on the sample servers *)

Lemma read_query_error_on_down_server :
  resourceLLDRead DownServer.api stored_config DownServer.start no_handler
  = (Some DownServer.refused, stored_config,
     mkSession tt [CallLLDsGet (read_params stored_config)]).
Proof.
  exact (read_query_error_propagates DownServer.api stored_config
           DownServer.start no_handler [] DownServer.refused tt eq_refl).
Defined.

Lemma read_one_match_on_memory_server :
  ∃ d',
    res_err (resourceLLDRead MemoryServer.api moved_config one_rule no_handler)
    = None
    ∧ res_data (resourceLLDRead MemoryServer.api moved_config one_rule no_handler)
      = (no_handler d' stored_rule).1
    ∧ Id d' = "7"
    ∧ hostid d' = "10084"
    ∧ preprocessor d' = [sample_block].
Proof.
  destruct (read_one_match_populates MemoryServer.api moved_config one_rule
              no_handler stored_rule (world one_rule) eq_refl)
    as (d' & He & Hd & Hid & Hh & _ & _ & _ & Hp & _).
  exists d'. repeat split; assumption.
Defined.

Lemma read_echo_on_memory_server :
  resourceLLDRead MemoryServer.api stored_config one_rule no_handler
  = (None, synced "7" stored_config,
     mkSession (world one_rule) [CallLLDsGet (read_params stored_config)]).
Proof.
  apply (read_echo_no_drift MemoryServer.api stored_config one_rule
           stored_rule (world one_rule)); try reflexivity.
  repeat split.
Defined.

Lemma create_then_read_on_memory_server :
  resourceLLDCreate MemoryServer.api sample_config MemoryServer.start
                    no_handler no_handler
  = Returned
      (None, synced "1" sample_config,
       mkSession
         (MemoryServer.mkWorld 2 [set_ItemID "1" (buildLLDObject sample_config)])
         [CallLLDsCreate [buildLLDObject sample_config];
          CallLLDsGet (read_params (SetId "1" sample_config))]).
Proof.
  apply (create_then_read_no_drift MemoryServer.api sample_config
           MemoryServer.start
           (set_ItemID "1" (buildLLDObject sample_config))
           (set_ItemID "1" (buildLLDObject sample_config)) []
           (MemoryServer.mkWorld 2
              [set_ItemID "1" (buildLLDObject sample_config)])
           (MemoryServer.mkWorld 2
              [set_ItemID "1" (buildLLDObject sample_config)]));
    try reflexivity.
  repeat split.
Defined.

Lemma update_then_read_on_memory_server :
  resourceLLDUpdate MemoryServer.api stored_config one_rule
                    no_handler no_handler
  = (None, synced "7" stored_config,
     mkSession (world one_rule)
       [CallLLDsUpdate [stored_rule];
        CallLLDsGet (read_params stored_config)]).
Proof.
  apply (update_then_read_no_drift MemoryServer.api stored_config one_rule
           stored_rule (world one_rule) (world one_rule)); try reflexivity.
  repeat split.
Defined.

(** * The host of a rule under the lifecycle driver *)

Lemma requires_new_hostid (prior planned : ResourceData) :
  requires_new prior planned
  = negb (String.eqb (hostid prior) (hostid planned)).
Proof.
  unfold requires_new, lldCommonSchema.
  cbn [existsb ForceNew fst snd andb].
  change (common_field "hostid" prior) with (hostid prior).
  change (common_field "hostid" planned) with (hostid planned).
  by rewrite !orb_false_r.
Qed.

Lemma no_update_among (rest : list ApiCall) :
  Forall (fun call => match call with
                      | CallLLDsUpdate _ => False
                      | _ => True
                      end) rest →
  ∀ batch, CallLLDsUpdate batch ∉ rest.
Proof.
  intros H batch Hin. rewrite Forall_forall in H. exact (H _ Hin).
Qed.

Section DriverProperties.

Context {World : Type}.
Variable api : API World.

(** Between the delete and the create of a replacement no update call is
    made. *)
Lemma replace_makes_no_update
      (prior planned : ResourceData) (s : Session World) (c r : LLDHandler)
      (res : Result) :
  (let '(err, _, s1) := resourceLLDDelete api prior s in
   match err with
   | Some e => Returned (Some e, prior, s1)
   | None => resourceLLDCreate api (SetId "" planned) s1 c r
   end) = Returned res →
  ∃ rest, calls (res_session res) = calls s ++ rest
          ∧ ∀ batch, CallLLDsUpdate batch ∉ rest.
Proof.
  unfold resourceLLDDelete, do_LLDDeleteByIds.
  destruct (LLDDeleteByIds api [Id prior] (world s)) as [err w].
  destruct err as [e |].
  - intros [= <-]. exists [CallLLDDeleteByIds [Id prior]].
    split; [reflexivity |]. apply no_update_among; by repeat constructor.
  - unfold resourceLLDCreate, do_LLDsCreate. cbn [world calls].
    destruct (c (SetId "" planned) (buildLLDObject (SetId "" planned)))
      as [d1 lld1].
    destruct (LLDsCreate api [lld1] w) as [[llds' err] w1].
    destruct err as [e |].
    + intros [= <-].
      exists [CallLLDDeleteByIds [Id prior]; CallLLDsCreate [lld1]].
      split; [cbn; by rewrite <- app_assoc |]. apply no_update_among; by repeat constructor.
    + destruct llds' as [| lld0 rest0]; [discriminate |].
      intros [= <-].
      exists [CallLLDDeleteByIds [Id prior]; CallLLDsCreate [lld1];
              CallLLDsGet (read_params (SetId (ItemID lld0) d1))].
      split.
      * rewrite read_calls. cbn [calls]. by rewrite <- !app_assoc.
      * apply no_update_among; by repeat constructor.
Qed.

(** C8: the schema marks the host id [ForceNew]. Under the driver, a plan
    whose host id differs from the state is never carried out as an update:
    it is a replacement, and the replacement makes no update call. Every
    update the driver invokes is on a record whose host id is that of the
    state: the rule handed to the pre-submit handler, which is what the
    update call then submits, carries the host id of the state, the update
    handler itself holding no guard. *)
Theorem hostid_guarded_by_schema
        (prior planned : ResourceData) (s : Session World) (c r : LLDHandler) :
  ForceNew <$> field_schema lldCommonSchema "hostid" = Some true
  ∧ (hostid planned ≠ hostid prior →
     ∃ out,
       apply_change api prior planned s c r = Replaced out
       ∧ ∀ res, out = Returned res →
           ∃ rest, calls (res_session res) = calls s ++ rest
                   ∧ ∀ batch, CallLLDsUpdate batch ∉ rest)
  ∧ (∀ res,
       apply_change api prior planned s c r = Updated res →
       hostid planned = hostid prior
       ∧ ∃ d1 lld1 rest,
           c (SetId (Id prior) planned)
             {| ItemID := Id prior;
                Key := key planned;
                HostID := hostid prior;
                Name := name planned;
                Delay := delay planned;
                Preprocessors_ := generate_block <$> preprocessor planned;
                Extra := ∅ |}
           = (d1, lld1)
           ∧ calls (res_session res)
             = calls s ++ CallLLDsUpdate [lld1] :: rest).
Proof.
  split; [reflexivity |]. unfold apply_change. rewrite requires_new_hostid.
  split.
  - intros Hne.
    destruct (String.eqb_spec (hostid prior) (hostid planned)) as [Heq | _];
      [by destruct Hne |].
    cbn [negb]. eexists. split; [reflexivity |].
    intros res Hres. by apply (replace_makes_no_update prior planned s c r).
  - intros res.
    destruct (String.eqb_spec (hostid prior) (hostid planned)) as [Heq | _];
      [| discriminate].
    cbn [negb]. intros [= <-]. split; [done |].
    unfold resourceLLDUpdate, do_LLDsUpdate.
    rewrite buildLLDObject_fields.
    cbn [set_ItemID Id hostid key name delay preprocessor SetId
         ItemID Key HostID Name Delay Preprocessors_ Extra].
    rewrite <- Heq.
    destruct (c _ _) as [d1 lld1] eqn:Hc.
    exists d1, lld1.
    destruct (LLDsUpdate api [lld1] (world s)) as [err w].
    destruct err as [e |].
    + exists []. split; reflexivity.
    + exists [CallLLDsGet (read_params d1)]. split; [reflexivity |].
      rewrite read_calls. cbn [calls]. by rewrite <- app_assoc.
Qed.

End DriverProperties.

(** A change of host on the in-memory server is a replacement, made of a
    delete and a create; a change of name is an update, and the rule it
    submits carries the host of the state. *)
Lemma hostid_guarded_on_memory_server :
  (∃ out,
      apply_change MemoryServer.api stored_config moved_config one_rule
                   no_handler no_handler = Replaced out)
  ∧ ∃ rest,
      calls (res_session
               (resourceLLDUpdate MemoryServer.api renamed_config one_rule
                                  no_handler no_handler))
      = CallLLDsUpdate
          [mkLLDRule "7" "vfs.fs.discovery" "10084" "Filesystems" "3600"
             [mkPreprocessor "5" (String "a" (String newline_byte "b")) "0" ""]
             ∅]
        :: rest.
Proof.
  split.
  - destruct (hostid_guarded_by_schema MemoryServer.api stored_config
                moved_config one_rule no_handler no_handler)
      as (_ & Hreplace & _).
    destruct Hreplace as (out & Hout & _); [discriminate |].
    exists out. exact Hout.
  - destruct (hostid_guarded_by_schema MemoryServer.api stored_config
                renamed_config one_rule no_handler no_handler)
      as (_ & _ & Hupdate).
    destruct (Hupdate _ eq_refl) as (_ & d1 & lld1 & rest & Hc & Hcalls).
    injection Hc as <- <-. exists rest. exact Hcalls.
Defined.

(** * The empty parameter list *)

(** C1, at the failing input: [bare_config] is a valid configuration whose
    one block gives no parameters and holds no newline; the builder sends
    the empty string for it, and the flattener hands back the list of one
    empty string, not the empty list the block has. *)
Theorem empty_params_flatten_to_one_empty_string :
  valid_config bare_config = true
  ∧ params_newline_free bare_config = true
  ∧ b_params <$> preprocessor bare_config = [[]]
  ∧ Params <$> Preprocessors_ (buildLLDObject bare_config) = [""]
  ∧ flat_params (flattenlldPreprocessors (buildLLDObject bare_config)) 0
    = Some (VStrings [""])
  ∧ ¬ roundtrip_holds bare_config.
Proof.
  repeat (split; [reflexivity |]).
  intros H. unfold roundtrip_holds in H. rewrite flatten_build_eq in H.
  cbn in H. apply Forall2_cons_1 in H as [(_ & Hp & _) _].
  rewrite (proj1 (proj2 (flatten_one_lookups _))) in Hp. discriminate Hp.
Qed.
